(** * Interaction logic of the component library

    A shallow embedding of the keyboard, focus and scrolling logic of
    [src/TextInputWithTokens.tsx], of the attribute function of
    [Breadcrumb.Item] and of the two style templates of [ButtonInvisible].

    JavaScript numbers are IEEE 754 binary64 values and are modelled by the
    primitive floats of the kernel.  Callbacks and DOM methods are modelled by
    the trace of the calls a handler makes, together with the way the handler
    completes (normally, or by throwing). *)

From Stdlib Require Import Floats ZArith Lia Ascii.
From stdpp Require Import base list strings gmap.

(** ** JavaScript values *)

Module JS.

Definition number := float.

(** The relational operators on numbers.  [a > b] and [a >= b] are the IEEE
    comparisons with the operands swapped; a comparison with a NaN operand
    is [false]. *)
Definition lt (a b : number) : bool := (a <? b)%float.
Definition gt (a b : number) : bool := (b <? a)%float.
Definition le (a b : number) : bool := (a <=? b)%float.
Definition ge (a b : number) : bool := (b <=? a)%float.

(** [ToBoolean] on a string: only the empty string is falsy. *)
Definition truthy (s : string) : bool :=
  match s with
  | EmptyString => false
  | String _ _ => true
  end.

(** [arr.length], and [arr[i]] for an integer [i]: [undefined] outside
    [0 .. length - 1], in particular for [arr[-1]]. *)
Definition length {A} (arr : list A) : Z := Z.of_nat (List.length arr).

Definition index {A} (arr : list A) (i : Z) : option A :=
  if (i <? 0)%Z then None else arr !! Z.to_nat i.

Inductive Error := TypeError.

End JS.

(** ** Calls and completions *)

Inductive Completion (A : Type) :=
| Normal (a : A)
| Throw (e : JS.Error).
Arguments Normal {A} a.
Arguments Throw {A} e.

(** The outcome of running a handler: the calls it made on its environment,
    oldest first, and how it completed. *)
Record Run (Call A : Type) := mkRun {
  calls : list Call;
  completion : Completion A
}.
Arguments mkRun {Call A} calls completion.
Arguments calls {Call A} r.
Arguments completion {Call A} r.

Definition run_ret {Call A} (a : A) : Run Call A := mkRun [] (Normal a).

Definition run_bind {Call A B} (f : A -> Run Call B) (m : Run Call A) : Run Call B :=
  match completion m with
  | Normal a => let r := f a in mkRun (calls m ++ calls r) (completion r)
  | Throw e => mkRun (calls m) (Throw e)
  end.

#[global] Instance Run_ret {Call} : MRet (Run Call) := @run_ret Call.
#[global] Instance Run_bind {Call} : MBind (Run Call) := @run_bind Call.

Definition call {Call} (c : Call) : Run Call unit := mkRun [c] (Normal tt).
Definition throw {Call A} (e : JS.Error) : Run Call A := mkRun [] (Throw e).
Definition skip {Call} : Run Call unit := mret tt.

(** Member access [o.f] on a value that may be [undefined]. *)
Definition member {Call A B} (o : option A) (f : A -> B) : Run Call B :=
  match o with
  | Some a => mret (f a)
  | None => throw JS.TypeError
  end.

(** ** The DOM as far as the components touch it *)

Module DOM.

Record DOMRect := { rect_top : JS.number; rect_bottom : JS.number }.

Inductive ScrollBehavior := auto | smooth.

Record ScrollToOptions := {
  behavior : ScrollBehavior;
  top : JS.number
}.

Record HTMLElement := {
  node : nat;
  getBoundingClientRect : DOMRect;
  scrollTop : JS.number
}.

(** The dictionary read by [new KeyboardEvent(type, init)]; a native keyboard
    event passed as [init] is read through the same fields. *)
Record KeyboardEventInit := {
  init_key : string;
  init_code : string;
  init_ctrlKey : bool;
  init_shiftKey : bool;
  init_altKey : bool;
  init_metaKey : bool;
  init_repeat : bool;
  init_bubbles : bool;
  init_cancelable : bool
}.

Record KeyboardEvent := {
  ev_type : string;
  ev_init : KeyboardEventInit
}.

Definition new_KeyboardEvent (type : string) (init : KeyboardEventInit) : KeyboardEvent :=
  {| ev_type := type; ev_init := init |}.

Record RefObject (A : Type) := { current : option A }.
Arguments current {A} r.

End DOM.
Import DOM.

(** ** scrollIntoViewingArea *)

Module Scroll.

Inductive Call :=
| scrollTo (target : HTMLElement) (options : ScrollToOptions).

Local Open Scope float_scope.

Definition scrollIntoViewingArea
    (child container : HTMLElement)
    (margin : option JS.number) (behavior : option ScrollBehavior) : Run Call unit :=
  let margin := default 8 margin in
  let behavior := default smooth behavior in
  let childTop := rect_top (getBoundingClientRect child) in
  let childBottom := rect_bottom (getBoundingClientRect child) in
  let containerTop := rect_top (getBoundingClientRect container) in
  let containerBottom := rect_bottom (getBoundingClientRect container) in
  let isChildTopAboveViewingArea := JS.lt childTop (containerTop + margin) in
  let isChildBottomBelowViewingArea := JS.gt childBottom (containerBottom - margin) in
  if isChildTopAboveViewingArea then
    let scrollHeightToChildTop := childTop - containerTop + scrollTop container in
    call (scrollTo container
            {| behavior := behavior; top := scrollHeightToChildTop - margin |})
  else if isChildBottomBelowViewingArea then
    let scrollHeightToChildBottom := childBottom - containerBottom + scrollTop container in
    call (scrollTo container
            {| behavior := behavior; top := scrollHeightToChildBottom + margin |})
  else skip.

(** The state of an element after a sequence of calls, for any implementation
    [impl] of [Element.scrollTo] by the browser: only a call on the element
    itself moves its scroll position. *)
Definition scroll_after (impl : HTMLElement -> ScrollToOptions -> JS.number)
    (el : HTMLElement) (cs : list Call) : HTMLElement :=
  foldl (fun el c =>
           match c with
           | scrollTo target options =>
               if Nat.eqb (node target) (node el)
               then {| node := node el;
                       getBoundingClientRect := getBoundingClientRect el;
                       scrollTop := impl el options |}
               else el
           end) el cs.

Definition childTop (child : HTMLElement) := rect_top (getBoundingClientRect child).
Definition childBottom (child : HTMLElement) := rect_bottom (getBoundingClientRect child).
Definition containerTop (container : HTMLElement) := rect_top (getBoundingClientRect container).
Definition containerBottom (container : HTMLElement) := rect_bottom (getBoundingClientRect container).

(** Elements used in the examples: a scroll container 40px tall, scrolled by
    20px, and three list items: one taller than the container that sticks out
    on both ends, one inside the viewing area, one that sticks out below. *)
Definition small_container : HTMLElement :=
  {| node := 2; getBoundingClientRect := {| rect_top := 10; rect_bottom := 50 |};
     scrollTop := 20 |}.
Definition tall_child : HTMLElement :=
  {| node := 1; getBoundingClientRect := {| rect_top := 0; rect_bottom := 100 |};
     scrollTop := 0 |}.
Definition inner_child : HTMLElement :=
  {| node := 3; getBoundingClientRect := {| rect_top := 20; rect_bottom := 40 |};
     scrollTop := 0 |}.
Definition low_child : HTMLElement :=
  {| node := 4; getBoundingClientRect := {| rect_top := 30; rect_bottom := 60 |};
     scrollTop := 0 |}.

End Scroll.

(** ** TextInputWithTokens *)

Module TextInputWithTokens.

Inductive TokenId :=
| id_string (s : string)
| id_number (n : JS.number).

Module Token.
Record t := { text : option string; id : TokenId }.
End Token.

(** The element an event is delivered to, and a React keyboard event. *)
Record EventTarget := { value : string }.

Record SyntheticKeyboardEvent := {
  key : string;
  type : string;
  currentTarget : EventTarget;
  nativeEvent : KeyboardEventInit
}.

(** The calls the handlers make: the callbacks of the props, and the methods
    of the event and of DOM elements. *)
Inductive Call :=
| onTokenRemove (tokenId : TokenId)
| onFilterChange (value : string)
| focus (target : HTMLElement)
| preventDefault
| stopImmediatePropagation
| dispatchEvent (target : HTMLElement) (event : KeyboardEvent).

(** *** Component state: the two [useState] cells *)

Record State := {
  selectedTokenIdx : option nat;
  showMenu : bool
}.

Definition initialState : State :=
  {| selectedTokenIdx := None; showMenu := false |}.

Definition setSelectedTokenIdx (v : option nat) (st : State) : State :=
  {| selectedTokenIdx := v; showMenu := showMenu st |}.

Definition setShowMenu (v : bool) (st : State) : State :=
  {| selectedTokenIdx := selectedTokenIdx st; showMenu := v |}.

Definition closeOptionList (st : State) : State := setShowMenu false st.
Definition showOptionList (st : State) : State := setShowMenu true st.

Definition handleTokenFocus (tokenIdx : nat) (st : State) : State :=
  closeOptionList (setSelectedTokenIdx (Some tokenIdx) st).

Definition handleTokenBlur (st : State) : State :=
  setSelectedTokenIdx None st.

Definition handleInputFocus (st : State) : State :=
  showOptionList (setSelectedTokenIdx None st).

(** *** Handlers that call out of the component *)

Section Handlers.
Variable tokens : list Token.t.
Variable combinedInputRef : option (RefObject HTMLElement).
Variable activeDescendantRef : RefObject HTMLElement.

Definition handleTokenKeyUp (tokenId : TokenId) (e : SyntheticKeyboardEvent) : Run Call unit :=
  (if String.eqb (key e) "Backspace" then call (onTokenRemove tokenId) else skip) ;;
  (if String.eqb (key e) "Escape" then
     match combinedInputRef ≫= current with
     | Some input => call (focus input)
     | None => skip
     end
   else skip).

Definition handleInputChange (e : SyntheticKeyboardEvent) : Run Call unit :=
  call (onFilterChange (value (currentTarget e))).

Definition handleInputKeyUp (e : SyntheticKeyboardEvent) : Run Call unit :=
  if JS.truthy (value (currentTarget e)) then skip
  else
    let lastToken := JS.index tokens (JS.length tokens - 1) in
    if String.eqb (key e) "Backspace" then
      tokenId ← member lastToken Token.id;
      call (onTokenRemove tokenId)
    else skip.

Definition onInputKeyPress (event : SyntheticKeyboardEvent) : Run Call unit :=
  match String.eqb (key event) "Enter", current activeDescendantRef with
  | true, Some activeDescendant =>
      call preventDefault ;;
      call stopImmediatePropagation ;;
      let activeDescendantEvent := new_KeyboardEvent (type event) (nativeEvent event) in
      call (dispatchEvent activeDescendant activeDescendantEvent)
  | _, _ => skip
  end.

End Handlers.

(** The focus zone reports a new active descendant: the component records it
    and scrolls it into view when it was activated directly. *)
Definition onActiveDescendantChanged (scrollContainerRef : RefObject HTMLElement)
    (current : option HTMLElement) (directlyActivated : bool)
  : RefObject HTMLElement * Run Scroll.Call unit :=
  ({| DOM.current := current |},
   match current, DOM.current scrollContainerRef, directlyActivated with
   | Some item, Some container, true =>
       Scroll.scrollIntoViewingArea item container None None
   | _, _, _ => skip
   end).

(** *** Rendering of the tokens *)

Record TokenComponentProps := {
  tc_text : string;
  isSelected : bool;
  tc_onKeyUp : SyntheticKeyboardEvent -> Run Call unit;
  tc_handleRemove : Run Call unit
}.

Definition renderTokens (tokenComponent : bool) (combinedInputRef : option (RefObject HTMLElement))
    (st : State) (tokens : list Token.t) : list TokenComponentProps :=
  if tokenComponent then
    imap (fun i token =>
            {| tc_text := default "" (Token.text token);
               isSelected := bool_decide (selectedTokenIdx st = Some i);
               tc_onKeyUp := handleTokenKeyUp combinedInputRef (Token.id token);
               tc_handleRemove := call (onTokenRemove (Token.id token)) |}) tokens
  else [].

(** *** The component as a transition system

    One event per handler the component attaches.  The setter calls of one
    handler are applied together, before the next render.  The keyboard and
    change handlers never call a state setter. *)
Inductive Event :=
| TokenFocus (tokenIdx : nat)
| TokenBlur
| TokenKeyUp (tokenId : TokenId) (e : SyntheticKeyboardEvent)
| InputFocus
| InputChange (e : SyntheticKeyboardEvent)
| InputKeyUp (e : SyntheticKeyboardEvent)
| InputKeyPress (e : SyntheticKeyboardEvent)
| OverlayClickOutside
| OverlayEscape.

Definition step (st : State) (ev : Event) : State :=
  match ev with
  | TokenFocus tokenIdx => handleTokenFocus tokenIdx st
  | TokenBlur => handleTokenBlur st
  | InputFocus => handleInputFocus st
  | OverlayClickOutside | OverlayEscape => closeOptionList st
  | TokenKeyUp _ _ | InputChange _ | InputKeyUp _ | InputKeyPress _ => st
  end.

Inductive reachable : State -> Prop :=
| reachable_initial : reachable initialState
| reachable_step st ev : reachable st -> reachable (step st ev).

(** Whenever the option list is shown, no token is selected. *)
Definition menu_excludes_selection (st : State) : Prop :=
  showMenu st = true -> selectedTokenIdx st = None.

(** Values used in the examples. *)
Definition plain_init (k : string) : KeyboardEventInit :=
  {| init_key := k; init_code := k; init_ctrlKey := false; init_shiftKey := false;
     init_altKey := false; init_metaKey := false; init_repeat := false;
     init_bubbles := true; init_cancelable := true |}.

Definition keyEvent (ty k v : string) : SyntheticKeyboardEvent :=
  {| key := k; type := ty; currentTarget := {| value := v |}; nativeEvent := plain_init k |}.

Definition token_a : Token.t := {| Token.text := Some "a"; Token.id := id_number 1%float |}.
Definition token_b : Token.t := {| Token.text := Some "b"; Token.id := id_string "b" |}.

Definition input_element : HTMLElement :=
  {| node := 10;
     getBoundingClientRect := {| rect_top := 0%float; rect_bottom := 20%float |};
     scrollTop := 0%float |}.
Definition option_element : HTMLElement :=
  {| node := 11;
     getBoundingClientRect := {| rect_top := 30%float; rect_bottom := 50%float |};
     scrollTop := 0%float |}.

End TextInputWithTokens.

(** ** Breadcrumb.Item *)

Module Breadcrumb.

Definition SELECTED_CLASS : string := "selected".

Inductive LocationDescriptor :=
| location_string (s : string)
| location_object.

Record StyledBreadcrumbItemProps := {
  to : option LocationDescriptor;
  selected : option bool;
  className : option string
}.

(** The values the attribute function hands to [classnames]. *)
Inductive ClassValue :=
| cv_undefined
| cv_boolean (b : bool)
| cv_string (s : string).

(** [a && b] for an optional boolean [a]: the left operand when it is falsy,
    the right operand otherwise. *)
Definition and_then (a : option bool) (b : string) : ClassValue :=
  match a with
  | None => cv_undefined
  | Some false => cv_boolean false
  | Some true => cv_string b
  end.

Definition prop_value (s : option string) : ClassValue :=
  match s with
  | None => cv_undefined
  | Some s => cv_string s
  end.

(** The [classnames] package (an npm dependency): falsy arguments are
    skipped, a string argument is kept, a boolean contributes nothing, and the
    kept names are joined by single spaces. *)
Definition class_of (v : ClassValue) : option string :=
  match v with
  | cv_string s => if JS.truthy s then Some s else None
  | cv_undefined | cv_boolean _ => None
  end.

Definition classnames (args : list ClassValue) : string :=
  String.concat " " (omap class_of args).

Record Attrs := {
  activeClassName : string;
  attr_className : string;
  aria_current : option string
}.

(** The function given to [styled.a.attrs]. *)
Definition BreadcrumbItem (props : StyledBreadcrumbItemProps) : Attrs :=
  {| activeClassName :=
       match to props with
       | Some (location_string _) => "selected"
       | _ => ""
       end;
     attr_className :=
       classnames [and_then (selected props) SELECTED_CLASS; prop_value (className props)];
     aria_current := if default false (selected props) then Some "page" else None |}.

(** The class names of an element: its [class] attribute split on ASCII
    whitespace (tab, line feed, form feed, carriage return, space). *)
Definition is_ascii_whitespace (a : ascii) : bool :=
  match a with
  | "009" | "010" | "012" | "013" | " " => true
  | _ => false
  end%char.

Definition flush (cur : string) : list string :=
  match cur with
  | EmptyString => []
  | String _ _ => [cur]
  end.

Fixpoint split_classes (cur : string) (s : string) : list string :=
  match s with
  | EmptyString => flush cur
  | String a s' =>
      if is_ascii_whitespace a then flush cur ++ split_classes "" s'
      else split_classes (cur +:+ String a "") s'
  end.

Definition classList (s : string) : list string := split_classes "" s.

Definition has_class (name : string) (a : Attrs) : Prop :=
  name ∈ classList (attr_className a).

(** An item that is not selected but is given the class by its caller. *)
Definition styled_as_selected : StyledBreadcrumbItemProps :=
  {| to := None; selected := Some false; className := Some "selected" |}.

Definition current_page : StyledBreadcrumbItemProps :=
  {| to := Some (location_string "/here"); selected := Some true; className := Some "crumb" |}.

End Breadcrumb.

(** ** ButtonInvisible *)

Module Styled.

Inductive Selector :=
| base
| pseudo (name : string).

#[global] Instance Selector_eq_dec : EqDecision Selector.
Proof. solve_decision. Defined.

(** One declaration of the style sheet a styled component produces.  The
    value is [None] when the interpolation that computes it yields
    [undefined]. *)
Record Rule := {
  selector : Selector;
  property : string;
  value : option string
}.

Section Templates.
Context {Props : Type}.

(** What the templates import from files that are not part of [src/]: the
    theme of the props and the default theme ([../constants]), seen as maps
    from a dotted path to the value stored there; the styles of [ButtonBase];
    the mixins [buttonSystemProps] and [sx]. *)
Variable theme : Props -> gmap string string.
Variable defaultTheme : gmap string string.
Variable ButtonBase buttonSystemProps sx : Props -> list Rule.

(** [get(key)] reads [key] in the theme of the props and falls back on the
    default theme. *)
Definition get (key : string) (props : Props) : option string :=
  match theme props !! key with
  | Some v => Some v
  | None => defaultTheme !! key
  end.

Definition lit (v : string) (props : Props) : option string := Some v.

Definition decl (sel : Selector) (prop : string) (v : Props -> option string)
    (props : Props) : list Rule :=
  [{| selector := sel; property := prop; value := v props |}].

(** [styled(Base)`...`]: the styles of the base component, then the chunks
    of the template in order. *)
Definition styled (Base : Props -> list Rule) (chunks : list (Props -> list Rule))
    (props : Props) : list Rule :=
  Base props ++ concat ((fun chunk => chunk props) <$> chunks).

(** [src/Button/ButtonInvisible.tsx] *)
Definition ButtonInvisible : Props -> list Rule :=
  styled ButtonBase [
    decl base "color" (get "colors.btn.text");
    decl base "background-color" (lit "transparent");
    decl base "border" (lit "0");
    decl base "border-radius" (get "radii.2");
    decl base "box-shadow" (lit "none");
    decl (pseudo "hover") "background-color" (get "colors.btn.hoverBg");
    decl (pseudo "active") "background-color" (get "colors.btn.selectedBg");
    decl (pseudo "disabled") "background-color" (lit "transparent");
    decl (pseudo "disabled") "color" (get "colors.text.disabled");
    buttonSystemProps;
    sx
  ].

(** The second definition of the component ([unnamed/part_000]). *)
Definition ButtonInvisible_part_000 : Props -> list Rule :=
  styled ButtonBase [
    decl base "color" (get "colors.accent.fg");
    decl base "background-color" (lit "transparent");
    decl base "border" (lit "0");
    decl base "border-radius" (get "radii.2");
    decl base "box-shadow" (lit "none");
    decl (pseudo "disabled") "color" (get "colors.fg.muted");
    decl (pseudo "focus") "box-shadow" (get "shadows.btn.focusShadow");
    buttonSystemProps;
    sx
  ].

End Templates.

(** The values a style sheet declares for a property under a selector, in
    source order (the last one wins in the cascade). *)
Definition declared (css : list Rule) (sel : Selector) (prop : string) : list (option string) :=
  omap (fun r =>
          if decide (selector r = sel /\ property r = prop) then Some (value r) else None) css.

(** The (selector, property) pairs on which the two templates differ. *)
Definition differing : list (Selector * string) :=
  [ (base, "color");
    (pseudo "hover", "background-color");
    (pseudo "active", "background-color");
    (pseudo "disabled", "background-color");
    (pseudo "disabled", "color");
    (pseudo "focus", "box-shadow") ].

(** The two templates say the same in every state. *)
Definition equivalent {Props} (A B : Props -> list Rule) : Prop :=
  forall props sel prop, declared (A props) sel prop = declared (B props) sel prop.

(** A theme in which every path the templates read is defined. *)
Definition sample_theme : gmap string string :=
  list_to_map [
    ("colors.btn.text", "#24292e");
    ("colors.accent.fg", "#0969da");
    ("colors.btn.hoverBg", "#f3f4f6");
    ("colors.btn.selectedBg", "#edeff2");
    ("colors.text.disabled", "#959da5");
    ("colors.fg.muted", "#57606a");
    ("shadows.btn.focusShadow", "0 0 0 3px rgba(9,105,218,0.3)");
    ("radii.2", "6px")
  ].

Definition no_rules (theme : gmap string string) : list Rule := [].

End Styled.

(** ** TextInputWithTokens: sessions and what is rendered around the tokens *)

Module TextInputSession.
Import TextInputWithTokens.

(** The state after a sequence of events, oldest first. *)
Definition after (st : State) (evs : list Event) : State := foldl step st evs.




(** [const wrapperClasses = classnames(className, 'TextInput-wrapper')] *)
Definition wrapperClasses (className : option string) : string :=
  Breadcrumb.classnames
    [Breadcrumb.prop_value className; Breadcrumb.cv_string "TextInput-wrapper"].

(** [selectableItems.map(selectableItem => ({...selectableItem, onAction:
    onItemSelect}))], an item being an object with string keys. *)
Definition itemsToRender {Value : Type} (onItemSelect : Value)
    (selectableItems : list (gmap string Value)) : list (gmap string Value) :=
  (fun selectableItem => <["onAction" := onItemSelect]> selectableItem) <$> selectableItems.


Definition sample_item : gmap string string :=
  list_to_map [("text", "bug"); ("id", "1"); ("onAction", "own")].





(** [const scrollContainerRef = useRef<HTMLDivElement>(null)]: the component
    passes this ref to no element it renders, so it stays empty. *)
Definition scrollContainerRef : RefObject HTMLElement := {| current := None |}.

End TextInputSession.

(** ** Breadcrumb: the class of the [nav] element *)

Module BreadcrumbNav.
Import Breadcrumb.

(** [const classes = classnames(className, 'Breadcrumb')] *)
Definition classes (className : option string) : string :=
  classnames [prop_value className; cv_string "Breadcrumb"].

End BreadcrumbNav.

(** ** The class names of a rendered styled element *)

Module RenderedClasses.
Import Breadcrumb.

(** The class attribute of the element a styled component renders holds, in
    this order, the names the styling library generates for the component,
    the names of the [className] prop the component receives, and the names
    of the [className] its attrs function computes, if it has one.  The
    library is not part of [src/]: the generated names are a parameter.  The
    class names of an element form a set, so only membership is meaningful:
    a name may occur more than once in this list. *)
Definition styled_classes (generated : list string) (className : string)
    (attrs_className : option string) : list string :=
  generated ++ classList className ++ classList (default "" attrs_className).

(** [<BreadcrumbBase className={classes} ...>] *)
Definition nav_classes (generated : list string) (className : option string) : list string :=
  styled_classes generated (BreadcrumbNav.classes className) None.

(** [<Wrapper className={wrapperClasses} ...>] *)
Definition wrapper_classes (generated : list string) (className : option string) : list string :=
  styled_classes generated (TextInputSession.wrapperClasses className) None.

(** [<Breadcrumb.Item className=... selected=...>] *)
Definition anchor_classes (generated : list string) (props : StyledBreadcrumbItemProps)
  : list string :=
  styled_classes generated (default "" (className props))
    (Some (attr_className (BreadcrumbItem props))).

End RenderedClasses.

(** ** Which declaration wins *)

Module Cascade.
Import Styled.

(** A declaration whose interpolation yields [undefined] or the empty string
    is not part of the style sheet: an earlier declaration of the property
    still applies. *)
Definition kept (v : option string) : option string :=
  match v with
  | Some (String a s) => Some (String a s)
  | Some EmptyString | None => None
  end.

(** The value that applies for a property under a selector: the last
    declaration that is part of the sheet. *)
Definition winner (css : list Rule) (sel : Selector) (prop : string) : option string :=
  last (omap kept (declared css sel prop)).

(** The value of a declaration when it is part of the sheet, the earlier
    value otherwise. *)
Definition or_else (v : option string) (earlier : option string) : option string :=
  match kept v with
  | Some x => Some x
  | None => earlier
  end.

End Cascade.

(** ** Example style mixins *)

Module StyledExamples.
Import Styled.


(** A base component with its own look. *)
Definition ButtonBase_sample (theme : gmap string string) : list Rule :=
  [{| selector := base; property := "color"; value := Some "black" |};
   {| selector := base; property := "border"; value := Some "1px solid" |};
   {| selector := base; property := "cursor"; value := Some "pointer" |}].

End StyledExamples.

(** ** The styles of the wrapper of TextInputWithTokens *)

Module WrapperStyle.

(** Where a declaration of the template applies: the wrapper itself, the
    wrapper in a state ([&:focus-within]), an element inside it
    ([.TextInput-icon]), or the wrapper under a media query. *)
Inductive Scope :=
| self
| state (pseudo : string)
| inside (selector : string)
| media (query : string).

#[global] Instance Scope_eq_dec : EqDecision Scope.
Proof. solve_decision. Defined.

Record Decl := {
  scope : Scope;
  property : string;
  value : string
}.

(** An interpolation that yields [undefined] renders as nothing; a
    declaration whose whole value is then empty is not part of the style
    sheet (see [winner]). *)
Definition interp (v : option string) : string := default "" v.

(** [props.flag && css`...`] and [if (props.flag)]: an optional boolean prop
    counts when it is [true]. *)
Definition on (flag : option bool) : bool := default false flag.

Section Template.
Context {Props : Type}.

(** The props the template reads, and what it imports: the theme lookup
    [get] of [./constants] (see [Styled.get]) and the mixins [COMMON],
    [width], [minWidth], [maxWidth] (system props), [sizeVariants] and
    [sx]. *)
Variable theme : Props -> gmap string string.
Variable defaultTheme : gmap string string.
Variable disabled hasIcon block contrast : Props -> option bool.
Variable COMMON width minWidth maxWidth sizeVariants sx : Props -> list Decl.

Definition get (key : string) (props : Props) : string :=
  interp (Styled.get theme defaultTheme key props).

Definition mixins (props : Props) : list Decl :=
  COMMON props ++ width props ++ minWidth props ++ maxWidth props
  ++ sizeVariants props ++ sx props.

Definition Wrapper (props : Props) : list Decl :=
  [ {| scope := self; property := "display"; value := "inline-flex" |};
    {| scope := self; property := "align-items"; value := "stretch" |};
    {| scope := self; property := "min-height"; value := "34px" |};
    {| scope := self; property := "font-size"; value := get "fontSizes.1" props |};
    {| scope := self; property := "line-height"; value := "20px" |};
    {| scope := self; property := "color"; value := get "colors.text.primary" props |};
    {| scope := self; property := "vertical-align"; value := "middle" |};
    {| scope := self; property := "background-repeat"; value := "no-repeat" |};
    {| scope := self; property := "background-position"; value := "right 8px center" |};
    {| scope := self; property := "border";
       value := "1px solid " +:+ get "colors.border.primary" props |};
    {| scope := self; property := "border-radius"; value := get "radii.2" props |};
    {| scope := self; property := "outline"; value := "none" |};
    {| scope := self; property := "box-shadow"; value := get "shadows.shadow.inset" props |};
    {| scope := self; property := "flex-wrap"; value := "wrap" |};
    {| scope := self; property := "gap"; value := "0.25rem" |} ]
  ++ (if on (hasIcon props)
      then [ {| scope := self; property := "padding"; value := "0" |} ]
      else [ {| scope := self; property := "padding"; value := "6px 12px" |} ])
  ++ [ {| scope := inside ".TextInput-icon"; property := "align-self"; value := "center" |};
       {| scope := inside ".TextInput-icon"; property := "color";
          value := get "colors.icon.tertiary" props |};
       {| scope := inside ".TextInput-icon"; property := "margin";
          value := "0 " +:+ get "space.2" props |};
       {| scope := inside ".TextInput-icon"; property := "flex-shrink"; value := "0" |};
       {| scope := state "focus-within"; property := "border-color";
          value := get "colors.state.focus.border" props |};
       {| scope := state "focus-within"; property := "box-shadow";
          value := get "shadows.state.focus.shadow" props |} ]
  ++ (if on (contrast props)
      then [ {| scope := self; property := "background-color";
                value := get "colors.input.contrastBg" props |} ]
      else [])
  ++ (if on (disabled props)
      then [ {| scope := self; property := "color";
                value := get "colors.text.secondary" props |};
             {| scope := self; property := "background-color";
                value := get "colors.input.disabledBg" props |};
             {| scope := self; property := "border-color";
                value := get "colors.input.disabledBorder" props |} ]
      else [])
  ++ (if on (block props)
      then [ {| scope := self; property := "display"; value := "block" |};
             {| scope := self; property := "width"; value := "100%" |} ]
      else [])
  ++ [ {| scope := media ("(min-width: " +:+ get "breakpoints.1" props +:+ ")");
          property := "font-size"; value := get "fontSizes.1" props |} ]
  ++ mixins props.

End Template.

(** The values the template declares for a property in a scope, in source
    order. *)
Definition declared (css : list Decl) (sc : Scope) (prop : string) : list string :=
  omap (fun d => if decide (scope d = sc /\ property d = prop) then Some (value d) else None) css.

(** The value that applies: the last declaration that is part of the sheet.
    A declaration with an empty value is not, so that an earlier declaration
    of the property still applies. *)
Definition winner (css : list Decl) (sc : Scope) (prop : string) : option string :=
  last (List.filter JS.truthy (declared css sc prop)).

(** The theme paths the wrapper's own colors come from. *)
Definition wrapper_color_paths : list string :=
  [ "colors.text.primary"; "colors.text.secondary";
    "colors.input.contrastBg"; "colors.input.disabledBg" ].

(** Props used in the examples: the four flags and a theme. *)
Record SampleProps := {
  sample_disabled : option bool;
  sample_hasIcon : option bool;
  sample_block : option bool;
  sample_contrast : option bool
}.

Definition no_mixin (props : SampleProps) : list Decl := [].

Definition sample_input_theme : gmap string string :=
  list_to_map [
    ("colors.text.primary", "#24292e");
    ("colors.text.secondary", "#586069");
    ("colors.input.contrastBg", "#fafbfc");
    ("colors.input.disabledBg", "#f6f8fa");
    ("colors.input.disabledBorder", "#e1e4e8")
  ].

Definition sample_Wrapper (props : SampleProps) : list Decl :=
  Wrapper (fun _ => sample_input_theme) ∅
    sample_disabled sample_hasIcon sample_block sample_contrast
    no_mixin no_mixin no_mixin no_mixin no_mixin no_mixin props.

End WrapperStyle.

(** * Properties *)

(** ** Comparisons of numbers *)

Lemma SFcompare_antisym (x y : spec_float) :
  SFcompare y x = option_map CompOpp (SFcompare x y).
Proof.
  destruct x as [sx|sx| |sx mx ex], y as [sy|sy| |sy my ey]; simpl;
    repeat match goal with s : bool |- _ => destruct s end; simpl; try reflexivity.
  all: rewrite (Z.compare_antisym ex ey); destruct (ex ?= ey)%Z; simpl; try reflexivity.
  all: fold (Pos.compare mx my); fold (Pos.compare my mx).
  all: rewrite (Pos.compare_antisym mx my); destruct (mx ?= my)%positive; reflexivity.
Qed.

Lemma ge_not_lt (a b : JS.number) : JS.ge a b = true -> JS.lt a b = false.
Proof.
  unfold JS.ge, JS.lt. rewrite leb_spec, ltb_spec. unfold SFleb, SFltb.
  rewrite (SFcompare_antisym (Prim2SF b) (Prim2SF a)).
  destruct (SFcompare (Prim2SF b) (Prim2SF a)) as [[]|]; simpl; congruence.
Qed.

Lemma le_not_gt (a b : JS.number) : JS.le a b = true -> JS.gt a b = false.
Proof. intros H. apply (ge_not_lt b a). exact H. Qed.

(** ** scrollIntoViewingArea *)

Section ScrollFacts.
Import Scroll.
Local Open Scope float_scope.

Lemma scroll_after_nil impl el : scroll_after impl el [] = el.
Proof. reflexivity. Qed.

(** C3: when the child's top is at or below the container's top plus the
    margin and its bottom is at or above the container's bottom minus the
    margin, scrollIntoViewingArea makes no call to [container.scrollTo], and
    the container's scroll position stays what it was. *)
Theorem scrollIntoViewingArea_in_view
    (impl : HTMLElement -> ScrollToOptions -> JS.number)
    (child container : HTMLElement)
    (margin : option JS.number) (behavior : option ScrollBehavior) :
  JS.ge (childTop child) (containerTop container + default 8 margin) = true ->
  JS.le (childBottom child) (containerBottom container - default 8 margin) = true ->
  let r := scrollIntoViewingArea child container margin behavior in
  calls r = [] /\ completion r = Normal tt /\
  scrollTop (scroll_after impl container (calls r)) = scrollTop container.
Proof.
  intros Htop Hbottom. unfold childTop, containerTop in Htop.
  unfold childBottom, containerBottom in Hbottom.
  apply ge_not_lt in Htop. apply le_not_gt in Hbottom.
  cbv zeta. unfold scrollIntoViewingArea. rewrite Htop, Hbottom.
  repeat split.
Qed.

Lemma scrollIntoViewingArea_in_view_witness :
  let r := scrollIntoViewingArea inner_child small_container None None in
  calls r = [] /\ completion r = Normal tt /\
  scrollTop (scroll_after (fun _ o => top o) small_container (calls r)) = 20.
Proof.
  apply (scrollIntoViewingArea_in_view (fun _ o => top o) inner_child small_container None None);
    reflexivity.
Defined.

(** C4: when the child's top is above the viewing area, there is exactly one
    call, [scrollTo] on the container with
    [top = (childTop - containerTop + scrollTop) - margin], wherever the
    child's bottom lies; otherwise, when the child's bottom is below the
    viewing area, there is exactly one call, with
    [top = (childBottom - containerBottom + scrollTop) + margin]. *)
Theorem scrollIntoViewingArea_scrolls
    (child container : HTMLElement)
    (margin : option JS.number) (behavior : option ScrollBehavior) :
  let m := default 8 margin in
  let b := default smooth behavior in
  let r := scrollIntoViewingArea child container margin behavior in
  (JS.lt (childTop child) (containerTop container + m) = true ->
   r = call (scrollTo container
               {| DOM.behavior := b;
                  top := (childTop child - containerTop container + scrollTop container) - m |}))
  /\
  (JS.lt (childTop child) (containerTop container + m) = false ->
   JS.gt (childBottom child) (containerBottom container - m) = true ->
   r = call (scrollTo container
               {| DOM.behavior := b;
                  top := (childBottom child - containerBottom container + scrollTop container) + m |})).
Proof.
  cbv zeta. unfold childTop, containerTop, childBottom, containerBottom.
  split.
  - intros Htop. unfold scrollIntoViewingArea. rewrite Htop. reflexivity.
  - intros Htop Hbottom. unfold scrollIntoViewingArea. rewrite Htop, Hbottom. reflexivity.
Qed.

Lemma scrollIntoViewingArea_scrolls_witness :
  calls (scrollIntoViewingArea tall_child small_container None None)
    = [scrollTo small_container {| DOM.behavior := smooth; top := 2 |}]
  /\ calls (scrollIntoViewingArea low_child small_container None None)
    = [scrollTo small_container {| DOM.behavior := smooth; top := 38 |}].
Proof.
  split.
  - destruct (scrollIntoViewingArea_scrolls tall_child small_container None None) as [Hup _].
    rewrite Hup; reflexivity.
  - destruct (scrollIntoViewingArea_scrolls low_child small_container None None) as [_ Hdown].
    rewrite Hdown; reflexivity.
Defined.




End ScrollFacts.

(** ** The keyboard handlers of TextInputWithTokens *)

Section HandlerFacts.
Import TextInputWithTokens.

Lemma truthy_empty s : JS.truthy s = false <-> s = "".
Proof. destruct s; simpl; split; congruence. Qed.

(** [tokens[tokens.length - 1]] is the last token, if there is one. *)
Lemma index_last {A} (arr : list A) : JS.index arr (JS.length arr - 1) = last arr.
Proof.
  unfold JS.index, JS.length. rewrite last_lookup.
  destruct arr as [|x arr]; [reflexivity|].
  destruct (Z.ltb_spec (Z.of_nat (length (x :: arr)) - 1) 0) as [Hneg|_].
  - simpl in Hneg. lia.
  - f_equal. simpl. lia.
Qed.

Lemma eqb_key (k name : string) : String.eqb k name = true <-> k = name.
Proof. apply String.eqb_eq. Qed.

Lemma eqb_key_neq (k name : string) : String.eqb k name = false <-> k <> name.
Proof. apply String.eqb_neq. Qed.

(** C1, as the code has it: on a keyup with an empty input value and key
    'Backspace', when the tokens list has a last element, handleInputKeyUp
    calls onTokenRemove exactly once, with the id of that element; on a keyup
    with a non-empty input value it makes no call. *)
Theorem handleInputKeyUp_removes_last (tokens : list Token.t) (e : SyntheticKeyboardEvent) :
  (value (currentTarget e) = "" -> key e = "Backspace" ->
   forall lastToken, last tokens = Some lastToken ->
   handleInputKeyUp tokens e = call (onTokenRemove (Token.id lastToken)))
  /\
  (value (currentTarget e) <> "" -> handleInputKeyUp tokens e = skip).
Proof.
  unfold handleInputKeyUp. split.
  - intros Hvalue Hkey lastToken Hlast.
    apply truthy_empty in Hvalue. apply eqb_key in Hkey.
    rewrite Hvalue, Hkey, index_last, Hlast. reflexivity.
  - intros Hvalue. destruct (JS.truthy (value (currentTarget e))) eqn:Htruthy; [reflexivity|].
    apply truthy_empty in Htruthy. contradiction.
Qed.

Lemma handleInputKeyUp_removes_last_witness :
  handleInputKeyUp [token_a; token_b] (keyEvent "keyup" "Backspace" "")
    = call (onTokenRemove (id_string "b"))
  /\ handleInputKeyUp [token_a; token_b] (keyEvent "keyup" "Backspace" "abc") = skip.
Proof.
  split.
  - destruct (handleInputKeyUp_removes_last [token_a; token_b]
                (keyEvent "keyup" "Backspace" "")) as [Hremove _].
    apply (Hremove eq_refl eq_refl token_b eq_refl).
  - destruct (handleInputKeyUp_removes_last [token_a; token_b]
                (keyEvent "keyup" "Backspace" "abc")) as [_ Hkeep].
    apply Hkeep. discriminate.
Defined.

(** C1 as stated fails when there is no token: the keyup has an empty value
    and key 'Backspace', and onTokenRemove is not called at all. *)
Lemma handleInputKeyUp_no_token_no_call :
  let e := keyEvent "keyup" "Backspace" "" in
  value (currentTarget e) = "" /\ key e = "Backspace" /\
  ~ exists tokenId, calls (handleInputKeyUp [] e) = [onTokenRemove tokenId].
Proof.
  cbv zeta. split; [reflexivity|]. split; [reflexivity|].
  intros [tokenId Hcalls]. discriminate Hcalls.
Qed.

(** C2 does not hold of the code: with no tokens, an empty input value and
    key 'Backspace', [tokens[tokens.length - 1]] is [undefined] and reading
    its [id] throws a TypeError. *)
Theorem handleInputKeyUp_no_token_throws :
  JS.index (@nil Token.t) (JS.length (@nil Token.t) - 1) = None /\
  handleInputKeyUp [] (keyEvent "keyup" "Backspace" "") = throw JS.TypeError.
Proof. split; reflexivity. Qed.

(** With no tokens, the handler is safe for every other key. *)
Lemma handleInputKeyUp_no_token_other_key (e : SyntheticKeyboardEvent) :
  key e <> "Backspace" -> handleInputKeyUp [] e = skip.
Proof.
  intros Hkey. apply eqb_key_neq in Hkey. unfold handleInputKeyUp. rewrite Hkey.
  destruct (JS.truthy (value (currentTarget e))); reflexivity.
Qed.

(** C6: on a keypress with key 'Enter' while an active descendant is tracked,
    onInputKeyPress prevents the default, stops immediate propagation and
    dispatches on the active descendant a new keyboard event with the type
    and the fields of the event it received; when the key is not 'Enter' or
    no active descendant is tracked, it makes no call. *)
Theorem onInputKeyPress_forwards_enter
    (activeDescendantRef : RefObject HTMLElement) (event : SyntheticKeyboardEvent) :
  (key event = "Enter" ->
   forall activeDescendant, current activeDescendantRef = Some activeDescendant ->
   onInputKeyPress activeDescendantRef event =
     mkRun [ preventDefault;
             stopImmediatePropagation;
             dispatchEvent activeDescendant
               {| ev_type := type event; ev_init := nativeEvent event |} ]
           (Normal tt))
  /\
  (key event <> "Enter" \/ current activeDescendantRef = None ->
   onInputKeyPress activeDescendantRef event = skip).
Proof.
  unfold onInputKeyPress. split.
  - intros Hkey activeDescendant Href. apply eqb_key in Hkey.
    rewrite Hkey, Href. reflexivity.
  - intros [Hkey | Href].
    + apply eqb_key_neq in Hkey. rewrite Hkey. reflexivity.
    + rewrite Href. destruct (String.eqb (key event) "Enter"); reflexivity.
Qed.

Lemma onInputKeyPress_forwards_enter_witness :
  calls (onInputKeyPress {| current := Some option_element |} (keyEvent "keypress" "Enter" "ab"))
    = [ preventDefault; stopImmediatePropagation;
        dispatchEvent option_element
          {| ev_type := "keypress"; ev_init := plain_init "Enter" |} ]
  /\ calls (onInputKeyPress {| current := Some option_element |} (keyEvent "keypress" "a" "ab")) = []
  /\ calls (onInputKeyPress {| current := None |} (keyEvent "keypress" "Enter" "ab")) = [].
Proof.
  split; [|split].
  - destruct (onInputKeyPress_forwards_enter {| current := Some option_element |}
                (keyEvent "keypress" "Enter" "ab")) as [Henter _].
    rewrite (Henter eq_refl option_element eq_refl). reflexivity.
  - destruct (onInputKeyPress_forwards_enter {| current := Some option_element |}
                (keyEvent "keypress" "a" "ab")) as [_ Hother].
    rewrite Hother; [reflexivity | left; discriminate].
  - destruct (onInputKeyPress_forwards_enter {| current := None |}
                (keyEvent "keypress" "Enter" "ab")) as [_ Hother].
    rewrite Hother; [reflexivity | right; reflexivity].
Defined.

(** C7: on a keyup delivered to a rendered token with id [tokenId] (the text
    input is mounted with it, so the input ref is attached): with key
    'Backspace', handleTokenKeyUp calls onTokenRemove with [tokenId]; with key
    'Escape', it focuses the text input; with any other key it does neither.
    The two checks run one after the other, each on its own condition: the
    calls of the handler are those of the first check followed by those of
    the second. *)
Theorem handleTokenKeyUp_checks
    (input : HTMLElement) (tokenId : TokenId) (e : SyntheticKeyboardEvent) :
  let r := handleTokenKeyUp (Some {| current := Some input |}) tokenId e in
  (key e = "Backspace" -> r = call (onTokenRemove tokenId))
  /\ (key e = "Escape" -> r = call (focus input))
  /\ (key e <> "Backspace" -> key e <> "Escape" -> r = skip)
  /\ r = mkRun ((if String.eqb (key e) "Backspace" then [onTokenRemove tokenId] else [])
                ++ (if String.eqb (key e) "Escape" then [focus input] else []))
               (Normal tt).
Proof.
  cbv zeta. unfold handleTokenKeyUp. repeat split.
  - intros Hkey. rewrite Hkey. reflexivity.
  - intros Hkey. rewrite Hkey. reflexivity.
  - intros Hback Hesc. apply eqb_key_neq in Hback, Hesc. rewrite Hback, Hesc. reflexivity.
  - destruct (String.eqb (key e) "Backspace"), (String.eqb (key e) "Escape"); reflexivity.
Qed.

Lemma handleTokenKeyUp_checks_witness :
  handleTokenKeyUp (Some {| current := Some input_element |}) (id_string "b")
    (keyEvent "keyup" "Backspace" "") = call (onTokenRemove (id_string "b"))
  /\ handleTokenKeyUp (Some {| current := Some input_element |}) (id_string "b")
    (keyEvent "keyup" "Escape" "") = call (focus input_element)
  /\ handleTokenKeyUp (Some {| current := Some input_element |}) (id_string "b")
    (keyEvent "keyup" "Enter" "") = skip.
Proof.
  split; [|split].
  - destruct (handleTokenKeyUp_checks input_element (id_string "b")
                (keyEvent "keyup" "Backspace" "")) as (Hback & _).
    apply Hback. reflexivity.
  - destruct (handleTokenKeyUp_checks input_element (id_string "b")
                (keyEvent "keyup" "Escape" "")) as (_ & Hesc & _).
    apply Hesc. reflexivity.
  - destruct (handleTokenKeyUp_checks input_element (id_string "b")
                (keyEvent "keyup" "Enter" "")) as (_ & _ & Hother & _).
    apply Hother; discriminate.
Defined.

(** While the input ref is not attached, 'Escape' makes no call. *)
Lemma handleTokenKeyUp_detached (tokenId : TokenId) (e : SyntheticKeyboardEvent) :
  key e = "Escape" ->
  handleTokenKeyUp None tokenId e = skip /\
  handleTokenKeyUp (Some {| current := None |}) tokenId e = skip.
Proof. unfold handleTokenKeyUp. intros Hkey. rewrite Hkey. split; reflexivity. Qed.

End HandlerFacts.

(** ** The state of TextInputWithTokens *)

Section StateFacts.
Import TextInputWithTokens.

Lemma initial_menu_excludes_selection : menu_excludes_selection initialState.
Proof. unfold menu_excludes_selection. simpl. discriminate. Qed.

Lemma step_menu_excludes_selection st ev :
  menu_excludes_selection st -> menu_excludes_selection (step st ev).
Proof.
  unfold menu_excludes_selection. intros Hinv.
  destruct ev; simpl; try assumption; try discriminate; reflexivity.
Qed.

Lemma reachable_menu_excludes_selection st :
  reachable st -> menu_excludes_selection st.
Proof.
  induction 1 as [|st ev _ IH].
  - apply initial_menu_excludes_selection.
  - apply step_menu_excludes_selection, IH.
Qed.

(** What a rendered token shows as selected. *)
Lemma renderTokens_isSelected tokenComponent ref st (tokens : list Token.t) i p :
  renderTokens tokenComponent ref st tokens !! i = Some p ->
  isSelected p = bool_decide (selectedTokenIdx st = Some i).
Proof.
  unfold renderTokens. destruct tokenComponent; [|discriminate].
  rewrite list_lookup_imap. destruct (tokens !! i); simpl; [|discriminate].
  intros [= <-]. reflexivity.
Qed.

(** Every rendered token gets the keyup handler for its own id. *)
Lemma renderTokens_onKeyUp ref st (tokens : list Token.t) i token :
  tokens !! i = Some token ->
  tc_onKeyUp <$> renderTokens true ref st tokens !! i
  = Some (handleTokenKeyUp ref (Token.id token)).
Proof.
  intros Htoken. unfold renderTokens. rewrite list_lookup_imap, Htoken. reflexivity.
Qed.

(** C8: the invariant "whenever the option list is shown, no token is
    selected" holds initially and is preserved by the handler of every event,
    so it holds in every reachable state; in such a state at most one
    rendered token is marked isSelected, and none is while the option list
    is shown. *)
Theorem menu_excludes_selection_invariant :
  menu_excludes_selection initialState
  /\ (forall st ev, menu_excludes_selection st -> menu_excludes_selection (step st ev))
  /\ (forall st, reachable st ->
      menu_excludes_selection st
      /\ forall tokenComponent ref (tokens : list Token.t),
         let rendered := renderTokens tokenComponent ref st tokens in
         (forall i j p q,
            rendered !! i = Some p -> rendered !! j = Some q ->
            isSelected p = true -> isSelected q = true -> i = j)
         /\ (showMenu st = true ->
             forall i p, rendered !! i = Some p -> isSelected p = false)).
Proof.
  split; [apply initial_menu_excludes_selection|].
  split; [apply step_menu_excludes_selection|].
  intros st Hreach. pose proof (reachable_menu_excludes_selection st Hreach) as Hinv.
  split; [exact Hinv|].
  intros tokenComponent ref tokens rendered. split.
  - intros i j p q Hp Hq Hsp Hsq.
    apply renderTokens_isSelected in Hp, Hq.
    rewrite Hp in Hsp. rewrite Hq in Hsq.
    apply bool_decide_eq_true in Hsp, Hsq. congruence.
  - intros Hshown i p Hp. apply renderTokens_isSelected in Hp.
    rewrite Hp, (Hinv Hshown). reflexivity.
Qed.

Lemma menu_excludes_selection_invariant_witness :
  let st := step (step initialState (TokenFocus 1)) InputFocus in
  showMenu st = true /\ selectedTokenIdx st = None
  /\ (isSelected <$>
        renderTokens true None (step initialState (TokenFocus 1)) [token_a; token_b])
     = [false; true].
Proof.
  cbv zeta. split; [reflexivity|]. split; [|reflexivity].
  destruct menu_excludes_selection_invariant as (_ & _ & Hreach).
  destruct (Hreach (step (step initialState (TokenFocus 1)) InputFocus)) as [Hinv _].
  - apply reachable_step, reachable_step, reachable_initial.
  - apply Hinv. reflexivity.
Defined.

End StateFacts.

(** ** Breadcrumb.Item *)

Section BreadcrumbFacts.
Import Breadcrumb.

(** The class attribute the attribute function computes. *)
Lemma BreadcrumbItem_className props :
  classList (attr_className (BreadcrumbItem props)) =
  (if bool_decide (selected props = Some true) then ["selected"] else [])
  ++ classList (default "" (className props)).
Proof.
  destruct props as [to [[|]|] [[|a cn]|]]; reflexivity.
Qed.

(** C9, as the code has it: aria-current is 'page' exactly when the selected
    prop is true and is null otherwise; the class 'selected' is among the
    class names exactly when the selected prop is true or the className prop
    given by the caller already contains it. *)
Theorem BreadcrumbItem_selected (props : StyledBreadcrumbItemProps) :
  (aria_current (BreadcrumbItem props) = Some "page" <-> selected props = Some true)
  /\ (selected props <> Some true -> aria_current (BreadcrumbItem props) = None)
  /\ (has_class "selected" (BreadcrumbItem props) <->
      selected props = Some true \/ "selected" ∈ classList (default "" (className props))).
Proof.
  split; [|split].
  - destruct props as [to [[|]|] cn]; simpl; split; congruence.
  - destruct props as [to [[|]|] cn]; simpl; congruence.
  - unfold has_class. rewrite BreadcrumbItem_className, elem_of_app.
    case_bool_decide as Hsel.
    + split; [intros _; left; exact Hsel | intros _; left; apply list_elem_of_here].
    + split; (intros [Hl | Hr]; [|right; exact Hr]).
      * inversion Hl.
      * contradiction.
Qed.

Lemma BreadcrumbItem_selected_witness :
  aria_current (BreadcrumbItem styled_as_selected) = None
  /\ aria_current (BreadcrumbItem current_page) = Some "page"
  /\ has_class "selected" (BreadcrumbItem current_page).
Proof.
  split; [|split].
  - destruct (BreadcrumbItem_selected styled_as_selected) as (_ & Hnull & _).
    apply Hnull. discriminate.
  - destruct (BreadcrumbItem_selected current_page) as (Haria & _).
    apply Haria. reflexivity.
  - destruct (BreadcrumbItem_selected current_page) as (_ & _ & Hclass).
    apply Hclass. left. reflexivity.
Defined.

(** C9 as stated fails: an item whose selected prop is false and whose
    className prop is 'selected' has the class 'selected'. *)
Lemma BreadcrumbItem_class_without_selected :
  selected styled_as_selected = Some false /\
  attr_className (BreadcrumbItem styled_as_selected) = "selected" /\
  ~ (has_class "selected" (BreadcrumbItem styled_as_selected) <->
     selected styled_as_selected = Some true).
Proof.
  split; [reflexivity|]. split; [reflexivity|].
  intros [Hclass _].
  assert (Hhas : has_class "selected" (BreadcrumbItem styled_as_selected))
    by apply list_elem_of_here.
  specialize (Hclass Hhas). discriminate Hclass.
Qed.

End BreadcrumbFacts.

(** ** The two definitions of ButtonInvisible *)

Section StyledFacts.
Import Styled.

Lemma declared_app css1 css2 sel prop :
  declared (css1 ++ css2) sel prop = declared css1 sel prop ++ declared css2 sel prop.
Proof. apply omap_app. Qed.

Lemma declared_cons r css sel prop :
  declared (r :: css) sel prop =
  (if decide (selector r = sel /\ property r = prop) then [value r] else [])
  ++ declared css sel prop.
Proof. unfold declared. simpl. case_decide; reflexivity. Qed.

(** A declaration for one of the differing pairs is invisible from any other
    pair. *)
Lemma declared_differing r sel prop :
  (selector r, property r) ∈ differing ->
  (sel, prop) ∉ differing ->
  (if decide (selector r = sel /\ property r = prop) then [value r] else []) = [].
Proof.
  intros Hin Hnot. case_decide as Heq; [|reflexivity].
  destruct Heq as [<- <-]. contradiction.
Qed.

Ltac in_differing := unfold differing; simpl; set_solver.

(** C10, as the code has it: for every theme and props the two definitions
    declare the same values for every selector and property, except for the
    base color, the hover, active and disabled background, the disabled color
    and the focus box-shadow. *)
Theorem ButtonInvisible_agreement {Props : Type}
    (theme : Props -> gmap string string) (defaultTheme : gmap string string)
    (ButtonBase buttonSystemProps sx : Props -> list Rule)
    (props : Props) (sel : Selector) (prop : string) :
  (sel, prop) ∉ differing ->
  declared (ButtonInvisible theme defaultTheme ButtonBase buttonSystemProps sx props) sel prop
  = declared (ButtonInvisible_part_000 theme defaultTheme ButtonBase buttonSystemProps sx props)
      sel prop.
Proof.
  intros Hnot. unfold ButtonInvisible, ButtonInvisible_part_000, styled.
  rewrite !declared_app. f_equal.
  unfold decl. cbn [fmap list_fmap concat app].
  rewrite !declared_cons.
  rewrite !(declared_differing {| selector := base; property := "color" |})
    by (assumption || in_differing).
  rewrite !(declared_differing {| selector := pseudo "hover" |})
    by (assumption || in_differing).
  rewrite !(declared_differing {| selector := pseudo "active" |})
    by (assumption || in_differing).
  rewrite !(declared_differing {| selector := pseudo "disabled" |})
    by (assumption || in_differing).
  rewrite !(declared_differing {| selector := pseudo "focus" |})
    by (assumption || in_differing).
  reflexivity.
Qed.

Lemma ButtonInvisible_agreement_witness :
  declared (ButtonInvisible id ∅ no_rules no_rules no_rules sample_theme) base "border-radius"
  = declared (ButtonInvisible_part_000 id ∅ no_rules no_rules no_rules sample_theme)
      base "border-radius".
Proof.
  apply (ButtonInvisible_agreement id ∅ no_rules no_rules no_rules sample_theme
           base "border-radius").
  unfold differing. rewrite !not_elem_of_cons.
  repeat split; try discriminate. apply not_elem_of_nil.
Defined.

(** C10 as stated fails: in a theme that defines every path the templates
    read, the two definitions give a different base color, and only the first
    one has a hover rule. *)
Lemma ButtonInvisible_not_equivalent :
  let first := ButtonInvisible id ∅ no_rules no_rules no_rules in
  let second := ButtonInvisible_part_000 id ∅ no_rules no_rules no_rules in
  declared (first sample_theme) base "color" = [Some "#24292e"]
  /\ declared (second sample_theme) base "color" = [Some "#0969da"]
  /\ declared (first sample_theme) (pseudo "hover") "background-color" = [Some "#f3f4f6"]
  /\ declared (second sample_theme) (pseudo "hover") "background-color" = []
  /\ Forall (fun '(sel, prop) =>
               declared (first sample_theme) sel prop <> declared (second sample_theme) sel prop)
            differing
  /\ ~ equivalent first second.
Proof.
  cbv zeta. repeat split; try (vm_compute; reflexivity).
  { unfold differing. repeat constructor; vm_compute; discriminate. }
  intros Hequiv. specialize (Hequiv sample_theme base "color").
  vm_compute in Hequiv. discriminate Hequiv.
Qed.

End StyledFacts.

(** * Further properties *)

(** ** handleInputKeyUp *)

Section InputKeyUpFacts.
Import TextInputWithTokens.

(** X1: handleInputKeyUp throws exactly when the input is empty, the key is
    'Backspace' and there is no token; in every other case it completes
    normally. *)
Theorem handleInputKeyUp_throws_iff (tokens : list Token.t) (e : SyntheticKeyboardEvent) :
  (completion (handleInputKeyUp tokens e) = Throw JS.TypeError <->
   value (currentTarget e) = "" /\ key e = "Backspace" /\ tokens = [])
  /\ (completion (handleInputKeyUp tokens e) <> Throw JS.TypeError ->
      completion (handleInputKeyUp tokens e) = Normal tt).
Proof.
  unfold handleInputKeyUp. rewrite index_last.
  destruct (JS.truthy (value (currentTarget e))) eqn:Hvalue.
  - split; [|reflexivity]. split; [discriminate|].
    intros (Hempty & _). apply truthy_empty in Hempty. congruence.
  - apply truthy_empty in Hvalue.
    destruct (String.eqb (key e) "Backspace") eqn:Hkey.
    + apply eqb_key in Hkey. destruct (last tokens) as [lastToken|] eqn:Hlast.
      * split; [|reflexivity]. split; [discriminate|].
        intros (_ & _ & ->). discriminate Hlast.
      * apply last_None in Hlast. split; [|intros Hno; contradiction Hno; reflexivity].
        split; [intros _; auto | reflexivity].
    + apply eqb_key_neq in Hkey. split; [|reflexivity]. split; [discriminate|].
      intros (_ & Hback & _). contradiction.
Qed.

(** X2: handleInputKeyUp makes at most one call, and a call it makes is
    onTokenRemove with the id of the last token, on a 'Backspace' keyup in an
    empty input: no other token is ever removed by it. *)
Theorem handleInputKeyUp_only_last (tokens : list Token.t) (e : SyntheticKeyboardEvent) :
  length (calls (handleInputKeyUp tokens e)) <= 1
  /\ forall c, c ∈ calls (handleInputKeyUp tokens e) ->
       value (currentTarget e) = "" /\ key e = "Backspace" /\
       exists lastToken, last tokens = Some lastToken /\ c = onTokenRemove (Token.id lastToken).
Proof.
  unfold handleInputKeyUp. rewrite index_last.
  destruct (JS.truthy (value (currentTarget e))) eqn:Hvalue.
  - split; [simpl; lia|]. intros c Hc. inversion Hc.
  - apply truthy_empty in Hvalue.
    destruct (String.eqb (key e) "Backspace") eqn:Hkey.
    + apply eqb_key in Hkey. destruct (last tokens) as [lastToken|].
      * split; [simpl; lia|]. intros c Hc. apply list_elem_of_singleton in Hc.
        repeat split; try assumption. exists lastToken. split; [reflexivity | exact Hc].
      * split; [simpl; lia|]. intros c Hc. inversion Hc.
    + split; [simpl; lia|]. intros c Hc. inversion Hc.
Qed.

(** X3: the outcome of handleInputKeyUp depends on the tokens through the
    last one only: tokens in front of it change nothing. *)
Theorem handleInputKeyUp_prefix_irrelevant
    (front : list Token.t) (lastToken : Token.t) (e : SyntheticKeyboardEvent) :
  handleInputKeyUp (front ++ [lastToken]) e = handleInputKeyUp [lastToken] e.
Proof.
  unfold handleInputKeyUp. rewrite !index_last, last_snoc. reflexivity.
Qed.

End InputKeyUpFacts.

(** ** The active descendant *)

Section ActiveDescendantFacts.
Import TextInputWithTokens TextInputSession.

(** X4: onActiveDescendantChanged always records the reported element (or
    its absence) in the ref; it completes normally, makes at most one call,
    and a call it makes is [scrollTo] on the scroll container, for an element
    that was activated directly. *)
Theorem onActiveDescendantChanged_records
    (scrollContainerRef : RefObject HTMLElement)
    (reported : option HTMLElement) (directlyActivated : bool) :
  let result := onActiveDescendantChanged scrollContainerRef reported directlyActivated in
  current (fst result) = reported
  /\ completion (snd result) = Normal tt
  /\ length (calls (snd result)) <= 1
  /\ forall c, c ∈ calls (snd result) ->
       directlyActivated = true /\ is_Some reported /\
       exists container options,
         current scrollContainerRef = Some container /\
         c = Scroll.scrollTo container options.
Proof.
  cbv zeta. unfold onActiveDescendantChanged. simpl.
  split; [reflexivity|].
  destruct reported as [item|], (current scrollContainerRef) as [container|],
    directlyActivated; simpl;
    try (repeat split; [lia | intros c Hc; inversion Hc]).
  unfold Scroll.scrollIntoViewingArea.
  repeat match goal with |- context [if ?b then _ else _] => destruct b end; simpl.
  all: split; [reflexivity|]; split; [lia|].
  all: intros c Hc; try (inversion Hc; fail).
  all: apply list_elem_of_singleton in Hc; repeat split; eauto.
Qed.



(** As the component is written, the scroll container ref is attached to no
    element: a report of the focus zone is recorded but never scrolls, and
    scrollIntoViewingArea is not reached. *)
Lemma onActiveDescendantChanged_never_scrolls
    (reported : option HTMLElement) (directlyActivated : bool) :
  snd (onActiveDescendantChanged scrollContainerRef reported directlyActivated) = skip.
Proof. destruct reported, directlyActivated; reflexivity. Qed.



End ActiveDescendantFacts.

(** ** scrollIntoViewingArea, as a whole *)

Section ScrollMoreFacts.
Import Scroll.
Local Open Scope float_scope.

(** X6: scrollIntoViewingArea scrolls exactly when the child's top is above
    the viewing area or its bottom is below it; it never throws, never makes
    more than one call, and a call is [scrollTo] on the container with the
    requested behavior ('smooth' when none is given). *)
Theorem scrollIntoViewingArea_scrolls_iff
    (child container : HTMLElement)
    (margin : option JS.number) (behavior : option ScrollBehavior) :
  let m := default 8 margin in
  let r := scrollIntoViewingArea child container margin behavior in
  (calls r <> [] <->
   JS.lt (childTop child) (containerTop container + m) = true \/
   JS.gt (childBottom child) (containerBottom container - m) = true)
  /\ completion r = Normal tt
  /\ length (calls r) <= 1
  /\ forall c, c ∈ calls r ->
       exists top, c = scrollTo container
                         {| DOM.behavior := default smooth behavior; top := top |}.
Proof.
  cbv zeta. unfold scrollIntoViewingArea, childTop, childBottom, containerTop, containerBottom.
  destruct (JS.lt _ _) eqn:Htop; [|destruct (JS.gt _ _) eqn:Hbottom]; simpl.
  - split; [split; [auto | discriminate]|].
    split; [reflexivity|]. split; [lia|].
    intros c Hc. apply list_elem_of_singleton in Hc. eauto.
  - split; [split; [auto | discriminate]|].
    split; [reflexivity|]. split; [lia|].
    intros c Hc. apply list_elem_of_singleton in Hc. eauto.
  - split; [split|].
    + intros Hcalls. contradiction Hcalls. reflexivity.
    + intros [H | H]; discriminate H.
    + split; [reflexivity|]. split; [lia|]. intros c Hc. inversion Hc.
Qed.

End ScrollMoreFacts.

(** ** Sessions of TextInputWithTokens *)

Section SessionFacts.
Import TextInputWithTokens TextInputSession.

Lemma after_snoc st evs ev : after st (evs ++ [ev]) = step (after st evs) ev.
Proof. unfold after. apply foldl_snoc. Qed.

Lemma reachable_after evs : reachable (after initialState evs).
Proof.
  induction evs as [|ev evs IH] using rev_ind.
  - apply reachable_initial.
  - rewrite after_snoc. apply reachable_step, IH.
Qed.

(** X8: the invariant is exact: a state of the component is reachable from
    the initial one if and only if it does not both show the option list and
    select a token; every such state is the outcome of some sequence of
    events. *)
Theorem reachable_iff_menu_excludes_selection (st : State) :
  (reachable st <-> menu_excludes_selection st)
  /\ (reachable st <-> exists evs, st = after initialState evs).
Proof.
  assert (Hhit : menu_excludes_selection st -> exists evs, st = after initialState evs).
  { destruct st as [[i|] [|]]; unfold menu_excludes_selection; simpl; intros Hinv.
    - discriminate (Hinv eq_refl).
    - exists [TokenFocus i]. reflexivity.
    - exists [InputFocus]. reflexivity.
    - exists []. reflexivity. }
  assert (Hrun : (exists evs, st = after initialState evs) -> reachable st).
  { intros [evs ->]. apply reachable_after. }
  split; split; auto using reachable_menu_excludes_selection.
Qed.



End SessionFacts.

(** ** The rendered tokens *)

Section RenderFacts.
Import TextInputWithTokens TextInputSession.

Lemma renderTokens_lookup ref st (tokens : list Token.t) i :
  renderTokens true ref st tokens !! i =
  (fun token =>
     {| tc_text := default "" (Token.text token);
        isSelected := bool_decide (selectedTokenIdx st = Some i);
        tc_onKeyUp := handleTokenKeyUp ref (Token.id token);
        tc_handleRemove := call (onTokenRemove (Token.id token)) |}) <$> tokens !! i.
Proof. unfold renderTokens. apply list_lookup_imap. Qed.



(** X12: the two ways to remove a rendered token agree: a 'Backspace' keyup
    on the token and its remove button make the same single call,
    onTokenRemove with the id of the token at that position, whether or not
    the input ref is attached. *)
Theorem rendered_token_removal ref st (tokens : list Token.t) i p (e : SyntheticKeyboardEvent) :
  renderTokens true ref st tokens !! i = Some p ->
  key e = "Backspace" ->
  tc_onKeyUp p e = tc_handleRemove p
  /\ exists token, tokens !! i = Some token
                   /\ tc_handleRemove p = call (onTokenRemove (Token.id token)).
Proof.
  rewrite renderTokens_lookup. intros Hp Hkey.
  destruct (tokens !! i) as [token|]; [|discriminate].
  simpl in Hp. injection Hp as <-. simpl. split; [|eauto].
  unfold handleTokenKeyUp. rewrite Hkey. reflexivity.
Qed.

Lemma rendered_token_removal_witness :
  exists p, renderTokens true None initialState [token_a; token_b] !! 1 = Some p
            /\ tc_onKeyUp p (keyEvent "keyup" "Backspace" "") = call (onTokenRemove (id_string "b")).
Proof.
  eexists. split; [reflexivity|].
  destruct (rendered_token_removal None initialState [token_a; token_b] 1 _
              (keyEvent "keyup" "Backspace" "") eq_refl eq_refl) as [Hsame _].
  rewrite Hsame. reflexivity.
Defined.



End RenderFacts.

(** ** The items of the option list *)

Section ItemFacts.
Import TextInputSession.
Context {Value : Type}.

(** X14: itemsToRender keeps the number and the order of the selectable
    items; every item it yields has [onAction] set to onItemSelect, whatever
    [onAction] the selectable item carried, and every other property is the
    one of the selectable item at the same position. *)
Theorem itemsToRender_items (onItemSelect : Value) (selectableItems : list (gmap string Value)) :
  length (itemsToRender onItemSelect selectableItems) = length selectableItems
  /\ (forall i item, itemsToRender onItemSelect selectableItems !! i = Some item ->
        item !! "onAction" = Some onItemSelect
        /\ exists selectableItem,
             selectableItems !! i = Some selectableItem
             /\ forall k, k <> "onAction" -> item !! k = selectableItem !! k)
  /\ (forall other, itemsToRender onItemSelect (itemsToRender other selectableItems)
                    = itemsToRender onItemSelect selectableItems).
Proof.
  unfold itemsToRender. split; [apply length_fmap|]. split.
  - intros i item. rewrite list_lookup_fmap.
    destruct (selectableItems !! i) as [selectableItem|]; [|discriminate].
    simpl. intros [= <-]. split; [apply lookup_insert_eq|].
    exists selectableItem. split; [reflexivity|].
    intros k Hk. apply lookup_insert_ne. congruence.
  - intros other. rewrite <- list_fmap_compose. apply list_fmap_ext.
    intros i selectableItem _. simpl. apply insert_insert_eq.
Qed.

End ItemFacts.

(** ** Class names *)

Section ClassFacts.
Import Breadcrumb.

(** Splitting a class attribute made of two parts joined by a space. *)
Lemma split_classes_joined cur s1 s2 :
  split_classes cur (s1 +:+ String " " s2) = split_classes cur s1 ++ split_classes "" s2.
Proof.
  revert cur. induction s1 as [|a s1 IH]; intros cur; simpl.
  - reflexivity.
  - destruct (is_ascii_whitespace a).
    + rewrite IH, app_assoc. reflexivity.
    + apply IH.
Qed.

(** [classnames(className, name)] for a name that is not empty: the classes
    of the caller, then the classes of the name. *)
Lemma classList_classnames_suffix (className : option string) (a : ascii) (name : string) :
  classList (classnames [prop_value className; cv_string (String a name)])
  = classList (default "" className) ++ classList (String a name).
Proof.
  destruct className as [[|b cn]|]; try reflexivity.
  change (classnames [prop_value (Some (String b cn)); cv_string (String a name)])
    with (String b cn +:+ String " " (String a name)).
  apply split_classes_joined.
Qed.

Lemma elem_of_styled_classes generated className attrs_className c :
  c ∈ RenderedClasses.styled_classes generated className attrs_className
  <-> c ∈ generated \/ c ∈ classList className
      \/ c ∈ classList (default "" attrs_className).
Proof. unfold RenderedClasses.styled_classes. rewrite !elem_of_app. reflexivity. Qed.

(** X15: the rendered [nav] of a Breadcrumb has the class 'Breadcrumb' and
    every class the caller passes; any other class it has is one the styling
    library generated. *)
Theorem Breadcrumb_classes (generated : list string) (className : option string) (c : string) :
  c ∈ RenderedClasses.nav_classes generated className
  <-> c ∈ generated \/ c ∈ classList (default "" className) \/ c = "Breadcrumb".
Proof.
  unfold RenderedClasses.nav_classes, BreadcrumbNav.classes.
  rewrite elem_of_styled_classes, classList_classnames_suffix, elem_of_app.
  change (classList "Breadcrumb") with ["Breadcrumb"].
  change (classList (default "" None)) with (@nil string).
  rewrite list_elem_of_singleton, elem_of_nil. tauto.
Qed.

(** X16: the rendered wrapper of TextInputWithTokens has the class
    'TextInput-wrapper' and every class the caller passes; any other class
    it has is one the styling library generated. *)
Theorem wrapperClasses_classes (generated : list string) (className : option string)
    (c : string) :
  c ∈ RenderedClasses.wrapper_classes generated className
  <-> c ∈ generated \/ c ∈ classList (default "" className) \/ c = "TextInput-wrapper".
Proof.
  unfold RenderedClasses.wrapper_classes, TextInputSession.wrapperClasses.
  rewrite elem_of_styled_classes, classList_classnames_suffix, elem_of_app.
  change (classList "TextInput-wrapper") with ["TextInput-wrapper"].
  change (classList (default "" None)) with (@nil string).
  rewrite list_elem_of_singleton, elem_of_nil. tauto.
Qed.

(** X17: the rendered anchor of Breadcrumb.Item has every class the caller
    passes, and the class 'selected' when the selected prop is true; any
    other class it has is one the styling library generated.  The active
    class name handed to a router link is 'selected' exactly when [to] is a
    string, and empty otherwise. *)
Theorem BreadcrumbItem_classes (generated : list string)
    (props : StyledBreadcrumbItemProps) (c : string) :
  (c ∈ RenderedClasses.anchor_classes generated props <->
   c ∈ generated
   \/ c ∈ classList (default "" (className props))
   \/ (c = "selected" /\ selected props = Some true))
  /\ (activeClassName (BreadcrumbItem props) = "selected"
      <-> exists path, to props = Some (location_string path))
  /\ (activeClassName (BreadcrumbItem props) <> "selected"
      -> activeClassName (BreadcrumbItem props) = "").
Proof.
  split; [|split].
  - unfold RenderedClasses.anchor_classes.
    rewrite elem_of_styled_classes.
    change (default "" (Some (attr_className (BreadcrumbItem props))))
      with (attr_className (BreadcrumbItem props)).
    rewrite BreadcrumbItem_className, elem_of_app. case_bool_decide as Hsel.
    + rewrite list_elem_of_singleton. tauto.
    + rewrite elem_of_nil. tauto.
  - destruct props as [[[path|]|] sel cn]; simpl; split; try discriminate; eauto.
    + intros [path Hpath]. discriminate Hpath.
    + intros [path Hpath]. discriminate Hpath.
  - destruct props as [[[path|]|] sel cn]; simpl; intros H; try reflexivity.
    contradiction H. reflexivity.
Qed.

End ClassFacts.

(** ** The cascade in ButtonInvisible *)

Section CascadeFacts.
Import Styled.
Context {Props : Type}.
Variable theme : Props -> gmap string string.
Variable defaultTheme : gmap string string.
Variable ButtonBase buttonSystemProps sx : Props -> list Rule.



(** The winner of a sheet whose declarations for a property end with [v]. *)
Lemma winner_of_declared (css : list Rule) sel prop ds v :
  declared css sel prop = ds ++ [v] ->
  Cascade.winner css sel prop = Cascade.or_else v (last (omap Cascade.kept ds)).
Proof.
  unfold Cascade.winner, Cascade.or_else. intros ->.
  rewrite omap_app, last_app. simpl. destruct (Cascade.kept v); reflexivity.
Qed.

(** X19: what applies on the button itself when the system props and [sx]
    declare nothing there.  The background is transparent, the border 0 and
    the shadow none, whatever ButtonBase declares.  The color is the theme's
    [colors.btn.text] in the first definition and [colors.accent.fg] in the
    second, and the radius is the theme's [radii.2]; where the theme does not
    define the path the declaration is not part of the sheet, and the value
    of ButtonBase applies. *)
Theorem ButtonInvisible_overrides_ButtonBase (props : Props) :
  (forall prop, declared (buttonSystemProps props) base prop = []
                /\ declared (sx props) base prop = []) ->
  let first := ButtonInvisible theme defaultTheme ButtonBase buttonSystemProps sx props in
  let second := ButtonInvisible_part_000 theme defaultTheme ButtonBase buttonSystemProps sx props in
  let inherited := Cascade.winner (ButtonBase props) base in
  Cascade.winner first base "color"
    = Cascade.or_else (get theme defaultTheme "colors.btn.text" props) (inherited "color")
  /\ Cascade.winner second base "color"
    = Cascade.or_else (get theme defaultTheme "colors.accent.fg" props) (inherited "color")
  /\ Cascade.winner first base "border-radius"
    = Cascade.or_else (get theme defaultTheme "radii.2" props) (inherited "border-radius")
  /\ Cascade.winner second base "border-radius"
    = Cascade.or_else (get theme defaultTheme "radii.2" props) (inherited "border-radius")
  /\ Forall (fun '(prop, v) =>
               Cascade.winner first base prop = Some v
               /\ Cascade.winner second base prop = Some v)
            [ ("background-color", "transparent"); ("border", "0"); ("box-shadow", "none") ].
Proof.
  intros Hnone. cbv zeta.
  unfold ButtonInvisible, ButtonInvisible_part_000, styled, decl, lit.
  cbn [fmap list_fmap concat].
  repeat match goal with
  | |- context [get ?t ?d ?k ?p] => generalize (get t d k p); intro
  end.
  repeat match goal with
  | |- _ /\ _ => split
  | |- Forall _ _ => constructor
  end.
  all: etransitivity;
    [ apply winner_of_declared; rewrite !declared_app;
      match goal with |- context [declared (buttonSystemProps _) base ?p] =>
        destruct (Hnone p) as [-> ->] end;
      cbn; reflexivity
    | reflexivity ].
Qed.

End CascadeFacts.

Section CascadeExamples.
Import Styled StyledExamples.


Lemma ButtonInvisible_overrides_ButtonBase_witness :
  Cascade.winner (ButtonInvisible id ∅ ButtonBase_sample no_rules no_rules sample_theme)
    base "color" = Some "#24292e"
  /\ Cascade.winner (ButtonInvisible id ∅ ButtonBase_sample no_rules no_rules ∅)
       base "color" = Some "black".
Proof.
  split.
  - destruct (ButtonInvisible_overrides_ButtonBase id ∅ ButtonBase_sample no_rules no_rules
                sample_theme) as [Hcolor _].
    + intros prop. split; reflexivity.
    + rewrite Hcolor. vm_compute. reflexivity.
  - destruct (ButtonInvisible_overrides_ButtonBase id ∅ ButtonBase_sample no_rules no_rules
                ∅) as [Hcolor _].
    + intros prop. split; reflexivity.
    + rewrite Hcolor. vm_compute. reflexivity.
Defined.

End CascadeExamples.

(** ** The styles of the wrapper of TextInputWithTokens *)

Section WrapperFacts.
Import WrapperStyle.
Context {Props : Type}.
Variable theme : Props -> gmap string string.
Variable defaultTheme : gmap string string.
Variable disabled hasIcon block contrast : Props -> option bool.
Variable COMMON width minWidth maxWidth sizeVariants sx : Props -> list Decl.

Lemma wrapper_declared_app css1 css2 sc prop :
  declared (css1 ++ css2) sc prop = declared css1 sc prop ++ declared css2 sc prop.
Proof. apply omap_app. Qed.

(** X20: what applies on the wrapper itself, when the system props, the size
    variant and [sx] declare nothing there and the theme defines the four
    color paths the template reads.  The padding is declared once: '0' with
    an icon, '6px 12px' without.  A block wrapper is displayed as 'block'
    with width '100%', any other one as 'inline-flex' with no width.  A
    disabled wrapper has the disabled background and the secondary text
    color, also when contrast is set; a contrast wrapper that is not disabled
    has the contrast background; any other one declares no background. *)
Theorem Wrapper_cascade (props : Props) :
  (forall prop, declared (mixins COMMON width minWidth maxWidth sizeVariants sx props)
                  self prop = []) ->
  Forall (fun path => WrapperStyle.get theme defaultTheme path props <> "")
         wrapper_color_paths ->
  let css := Wrapper theme defaultTheme disabled hasIcon block contrast
               COMMON width minWidth maxWidth sizeVariants sx props in
  let get := WrapperStyle.get theme defaultTheme in
  declared css self "padding" = [if on (hasIcon props) then "0" else "6px 12px"]
  /\ winner css self "display" = Some (if on (block props) then "block" else "inline-flex")
  /\ winner css self "width" = (if on (block props) then Some "100%" else None)
  /\ winner css self "color" =
       Some (if on (disabled props) then get "colors.text.secondary" props
             else get "colors.text.primary" props)
  /\ winner css self "background-color" =
       (if on (disabled props) then Some (get "colors.input.disabledBg" props)
        else if on (contrast props) then Some (get "colors.input.contrastBg" props)
        else None).
Proof.
  intros Hnone Htheme. cbv zeta. unfold winner, Wrapper.
  rewrite !wrapper_declared_app, !Hnone.
  unfold wrapper_color_paths in Htheme.
  repeat match goal with
  | H : Forall _ (_ :: _) |- _ => apply Forall_cons in H; destruct H as [? H]
  end.
  repeat match goal with
  | H : WrapperStyle.get ?t ?d ?k ?p <> "" |- _ =>
      destruct (WrapperStyle.get t d k p) as [|? ?]; [contradiction H; reflexivity | clear H]
  end.
  repeat match goal with
  | |- context [WrapperStyle.get ?t ?d ?k ?p] => generalize (WrapperStyle.get t d k p); intro
  end.
  destruct (on (hasIcon props)), (on (block props)), (on (disabled props)),
    (on (contrast props)); vm_compute; repeat split; reflexivity.
Qed.

End WrapperFacts.

Section WrapperExamples.
Import WrapperStyle.

Lemma Wrapper_cascade_witness :
  winner (sample_Wrapper {| sample_disabled := Some true; sample_hasIcon := None;
                            sample_block := Some false; sample_contrast := Some true |})
    self "background-color" = Some "#f6f8fa".
Proof.
  unfold sample_Wrapper.
  destruct (Wrapper_cascade (fun _ => sample_input_theme) ∅
              sample_disabled sample_hasIcon sample_block sample_contrast
              no_mixin no_mixin no_mixin no_mixin no_mixin no_mixin
              {| sample_disabled := Some true; sample_hasIcon := None;
                 sample_block := Some false; sample_contrast := Some true |})
    as (_ & _ & _ & _ & Hbackground).
  - intros prop. reflexivity.
  - unfold wrapper_color_paths. repeat constructor; vm_compute; discriminate.
  - rewrite Hbackground. vm_compute. reflexivity.
Defined.

End WrapperExamples.

(** ** handleTokenKeyUp, for any state of the input ref *)

Section TokenKeyUpFacts.
Import TextInputWithTokens.

(** X21: handleTokenKeyUp never throws and makes at most one call, whatever
    the key and whether or not the input ref is attached.  A call it makes is
    either onTokenRemove with the id of its own token, on 'Backspace', or a
    focus of the element the input ref holds, on 'Escape'; it removes no
    other token and focuses no other element. *)
Theorem handleTokenKeyUp_calls
    (combinedInputRef : option (RefObject HTMLElement))
    (tokenId : TokenId) (e : SyntheticKeyboardEvent) :
  let r := handleTokenKeyUp combinedInputRef tokenId e in
  completion r = Normal tt
  /\ length (calls r) <= 1
  /\ forall c, c ∈ calls r ->
       (key e = "Backspace" /\ c = onTokenRemove tokenId)
       \/ (key e = "Escape" /\ exists input,
             combinedInputRef ≫= current = Some input /\ c = focus input).
Proof.
  cbv zeta. unfold handleTokenKeyUp.
  destruct (String.eqb (key e) "Backspace") eqn:Hback.
  - apply eqb_key in Hback. rewrite Hback. simpl.
    split; [reflexivity|]. split; [lia|].
    intros c Hc. apply list_elem_of_singleton in Hc. left. split; [reflexivity | exact Hc].
  - destruct (String.eqb (key e) "Escape") eqn:Hesc.
    + apply eqb_key in Hesc.
      destruct (combinedInputRef ≫= current) as [input|] eqn:Href; simpl.
      * split; [reflexivity|]. split; [lia|].
        intros c Hc. apply list_elem_of_singleton in Hc. right. eauto.
      * split; [reflexivity|]. split; [lia|]. intros c Hc. inversion Hc.
    + simpl. split; [reflexivity|]. split; [lia|]. intros c Hc. inversion Hc.
Qed.

End TokenKeyUpFacts.
